(** * Memory engine core: a shallow embedding of the memory store, the
    canonicalizer, the deduplicator, the retriever, the lifecycle worker
    and the silence-mode step of the turn orchestrator. *)

From Stdlib Require Import List String Ascii Bool ZArith QArith Reals Lra Lia Permutation.
Import ListNotations.

(* ------------------------------------------------------------------ *)
(** ** Shared data model ([app/models/memory.py]) *)

(** [MemoryType] *)
Inductive MemoryType := PREFERENCE | FACT | COMMITMENT | INSTRUCTION | ENTITY.

Definition MemoryType_eqb (a b : MemoryType) : bool :=
  match a, b with
  | PREFERENCE, PREFERENCE | FACT, FACT | COMMITMENT, COMMITMENT
  | INSTRUCTION, INSTRUCTION | ENTITY, ENTITY => true
  | _, _ => false
  end.


(** Python's [x or default] for an optional dictionary entry. *)
Definition dflt {A} (d : A) (o : option A) : A :=
  match o with Some x => x | None => d end.

(** Boolean views of the real comparisons used by the Python code. *)
Definition Rltb (a b : R) : bool := if Rlt_dec a b then true else false.
Definition Rleb (a b : R) : bool := if Rle_dec a b then true else false.

(** ** String helpers (ASCII view of Python's [str] methods) *)
Module Str.
Local Open Scope string_scope.

(** [str.lower] on the ASCII range. *)
Definition lower_ascii (c : ascii) : ascii :=
  let n := nat_of_ascii c in
  if (65 <=? n)%nat && (n <=? 90)%nat then ascii_of_nat (n + 32) else c.

Fixpoint lower (s : string) : string :=
  match s with
  | EmptyString => EmptyString
  | String c s' => String (lower_ascii c) (lower s')
  end.

Fixpoint startswith (p s : string) : bool :=
  match p, s with
  | EmptyString, _ => true
  | String a p', String b s' => Ascii.eqb a b && startswith p' s'
  | String _ _, EmptyString => false
  end.

(** Python's [p in s]. *)
Fixpoint contains (p s : string) : bool :=
  startswith p s ||
  match s with
  | EmptyString => false
  | String _ s' => contains p s'
  end.

Definition any_in (ps : list string) (s : string) : bool :=
  existsb (fun p => contains p s) ps.

Definition is_space (c : ascii) : bool :=
  let n := nat_of_ascii c in
  (n =? 32)%nat || ((9 <=? n)%nat && (n <=? 13)%nat).

Fixpoint lstrip (s : string) : string :=
  match s with
  | String c s' => if is_space c then lstrip s' else s
  | EmptyString => EmptyString
  end.

Fixpoint rev_str (s : string) (acc : string) : string :=
  match s with
  | EmptyString => acc
  | String c s' => rev_str s' (String c acc)
  end.

(** [str.strip] *)
Definition strip (s : string) : string :=
  rev_str (lstrip (rev_str (lstrip s) EmptyString)) EmptyString.

(** [len(s.split())]: the number of whitespace-separated words. *)
Fixpoint words_aux (in_word : bool) (s : string) : nat :=
  match s with
  | EmptyString => 0
  | String c s' =>
      if is_space c then words_aux false s'
      else if in_word then words_aux true s' else S (words_aux true s')
  end.
Definition word_count (s : string) : nat := words_aux false s.

(** [s.split(sep)[-1]]: the text after the last occurrence of [sep]
    (all of [s] when [sep] does not occur); [sep] is non-empty. *)
Fixpoint after_last (sep : string) (skip : nat) (s cur : string) : string :=
  match s with
  | EmptyString => cur
  | String _ s' =>
      match skip with
      | S k => after_last sep k s' cur
      | O =>
          if startswith sep s
          then after_last sep (pred (length sep)) s' (substring (length sep) (length s) s)
          else after_last sep 0 s' cur
      end
  end.
Definition split_last (sep s : string) : string := after_last sep 0 s s.

(** [s.split(",")[0]]: the text before the first comma. *)
Fixpoint before_char (d : ascii) (s : string) : string :=
  match s with
  | EmptyString => EmptyString
  | String c s' => if Ascii.eqb c d then EmptyString else String c (before_char d s')
  end.

(** [s.replace(ch, "")] for one character. *)
Fixpoint remove_char (d : ascii) (s : string) : string :=
  match s with
  | EmptyString => EmptyString
  | String c s' => if Ascii.eqb c d then remove_char d s' else String c (remove_char d s')
  end.

End Str.
(* ------------------------------------------------------------------ *)
(** ** Row store ([memories] table, [app/database.py] and migrations) *)

(** One row of the [memories] table.  [row_content_hash] is the column
    added by [migrations/add_content_hash_constraint.py]; it has no
    default, so a row inserted without it holds SQL NULL ([None]). *)
Record Row := {
  row_memory_id : nat;
  row_user_id : string;
  row_type : MemoryType;
  row_content : string;
  row_embedding : option (list R);
  row_source_turn : Z;
  row_created_at : Z;
  row_last_accessed : option Z;
  row_access_count : Z;
  row_confidence : R;
  row_decay_score : R;
  row_importance_level : string;
  row_context : list (string * string);
  row_content_hash : option string
}.

(** The row store; [st_hash_index] records whether the unique index
    [idx_memories_user_content_hash] on [(user_id, content_hash)] exists. *)
Record Store := { st_rows : list Row; st_hash_index : bool }.

(** [MemoryCreate] *)
Record MemoryCreate := {
  mc_user_id : string;
  mc_type : MemoryType;
  mc_content : string;
  mc_source_turn : Z;
  mc_confidence : R;
  mc_context : list (string * string)
}.

(** [settings.memory_embedding_dimension] *)
Definition memory_embedding_dimension : nat := 384.

Inductive StoreError := EmbeddingFailed | InvalidEmbedding | UniqueViolation.

Inductive CreateResult :=
| Created (st : Store) (r : Row)
| CreateFailed (e : StoreError).

(** SQL equality on a nullable column: NULL equals nothing, so a unique
    index never fires on a NULL key. *)
Definition sql_eq_hash (a b : option string) : bool :=
  match a, b with
  | Some x, Some y => String.eqb x y
  | _, _ => false
  end.

(** The unique index on [(user_id, content_hash)], when present. *)
Definition unique_violation (st : Store) (r : Row) : bool :=
  st_hash_index st &&
  existsb (fun r' => String.eqb (row_user_id r') (row_user_id r)
                     && sql_eq_hash (row_content_hash r') (row_content_hash r))
          (st_rows st).

Section MemoryStorage.
(** The embedder ([EmbeddingGenerator.generate]); [None] is a raised error. *)
Variable embed : string -> option (list R).
(** [datetime.utcnow()] at the time of the call. *)
Variable now : Z.

(** [MemoryStorage.create_memory]: the [INSERT] lists memory_id, user_id,
    type, content, embedding, source_turn, created_at, confidence, tags and
    entities; every other column takes its default ([context] included),
    and [content_hash] is not written.  The id is the fresh [uuid4]. *)
Definition create_memory (mid : nat) (mc : MemoryCreate) (st : Store) : CreateResult :=
  match embed (mc_content mc) with
  | None => CreateFailed EmbeddingFailed
  | Some e =>
      if negb (Nat.eqb (List.length e) memory_embedding_dimension)
      then CreateFailed InvalidEmbedding   (* Memory's embedding validator *)
      else
        let r := {| row_memory_id := mid;
                    row_user_id := mc_user_id mc;
                    row_type := mc_type mc;
                    row_content := mc_content mc;
                    row_embedding := Some e;
                    row_source_turn := mc_source_turn mc;
                    row_created_at := now;
                    row_last_accessed := None;
                    row_access_count := 0%Z;
                    row_confidence := mc_confidence mc;
                    row_decay_score := 1%R;
                    row_importance_level := "medium"%string;
                    row_context := [];
                    row_content_hash := None |} in
        if unique_violation st r then CreateFailed UniqueViolation
        else Created {| st_rows := (st_rows st ++ [r])%list; st_hash_index := st_hash_index st |} r
  end.

Lemma create_memory_hash_null mid mc st st' r :
  create_memory mid mc st = Created st' r -> row_content_hash r = None.
Proof.
  unfold create_memory.
  destruct (embed (mc_content mc)) as [e|]; [|discriminate].
  destruct (negb _); [discriminate|].
  destruct (unique_violation _ _); intro H; inversion H; reflexivity.
Qed.

(** The unique index never rejects an insert made by [create_memory]. *)
Lemma create_memory_never_unique_violation mid mc st :
  create_memory mid mc st <> CreateFailed UniqueViolation.
Proof.
  unfold create_memory.
  destruct (embed (mc_content mc)) as [e|]; [|congruence].
  destruct (negb _); [congruence|].
  unfold unique_violation; simpl.
  destruct (existsb _ _) eqn:E.
  - apply existsb_exists in E as [x [_ Hx]].
    unfold sql_eq_hash in Hx. destruct (row_content_hash x); rewrite andb_false_r in Hx; discriminate.
  - rewrite andb_false_r. congruence.
Qed.

End MemoryStorage.

(** [ORDER BY created_at DESC] (ties are left in an arbitrary order by
    the database; this insertion sort fixes one). *)
Fixpoint insert_created_desc (r : Row) (l : list Row) : list Row :=
  match l with
  | [] => [r]
  | x :: xs =>
      if (row_created_at x <? row_created_at r)%Z then r :: l
      else x :: insert_created_desc r xs
  end.

Fixpoint sort_created_desc (l : list Row) : list Row :=
  match l with
  | [] => []
  | x :: xs => insert_created_desc x (sort_created_desc xs)
  end.

(** Parsing a fetched row into a [Memory]: [row[4].strip(...)] raises on a
    NULL embedding and the [Memory] validator rejects a wrong dimension. *)
Definition row_parses (r : Row) : bool :=
  match row_embedding r with
  | Some e => Nat.eqb (List.length e) memory_embedding_dimension
  | None => false
  end.

(** [MemoryStorage.get_user_memories]: [None] when it raises. *)
Definition get_user_memories (rows : list Row) (user_id : string)
    (memory_type : option MemoryType) (limit : nat) : option (list Row) :=
  let sel :=
    firstn limit
      (sort_created_desc
         (filter (fun r => String.eqb (row_user_id r) user_id &&
                           match memory_type with
                           | Some t => MemoryType_eqb (row_type r) t
                           | None => true
                           end) rows)) in
  if forallb row_parses sel then Some sel else None.

(* ------------------------------------------------------------------ *)
(** ** Canonicalizer ([app/services/canonicalizer.py]) *)
Module Canonical.
Local Open Scope string_scope.













End Canonical.

(* ------------------------------------------------------------------ *)
(** ** Deduplicator and the extraction loop ([app/api/routes.py]) *)






Section Pipeline.
Variable embed : string -> option (list R).
Variable now : Z.




End Pipeline.

(* ------------------------------------------------------------------ *)
(** ** Lifecycle: TTL expiry and cleanup *)
Module Lifecycle.
Local Open Scope Z_scope.

Definition seconds_per_day : Z := 86400.

(** [MEMORY_TTL_POLICY]: days, or [None] for persistent types. *)
Definition MEMORY_TTL_POLICY (t : MemoryType) : option Z :=
  match t with
  | ENTITY => Some 180
  | _ => None
  end.

(** The [WHERE] clause of [expire_old_memories]:
    [type = 'entity' AND created_at < :expiry_date [AND user_id = :user_id]];
    the user filter is added only when [user_id] is truthy. *)
Definition ttl_expired (now : Z) (user_id : option string) (r : Row) : bool :=
  let entity_expiry_date := now - 180 * seconds_per_day in
  MemoryType_eqb (row_type r) ENTITY
  && (row_created_at r <? entity_expiry_date)
  && match user_id with
     | Some u => if String.eqb u "" then true else String.eqb (row_user_id r) u
     | None => true
     end.


(** [settings.memory_confidence_threshold] and [settings.memory_decay_days] *)
Definition memory_confidence_threshold : R := (7/10)%R.
Definition memory_decay_days : Z := 90.

(** [decay_score=row[10] or 1.0]: a stored [0.0] reads back as [1.0]. *)
Definition fetched_decay_score (r : Row) : R :=
  if Req_EM_T (row_decay_score r) 0 then 1%R else row_decay_score r.

(** The two deletion tests of [cleanup_old_memories]. *)
Definition should_delete (cutoff : Z) (min_decay_score : R) (m : Row) : bool :=
  ((row_created_at m <? cutoff) && Rltb (fetched_decay_score m) min_decay_score)
  || ((row_access_count m =? 0) && Rltb (row_confidence m) memory_confidence_threshold).

(** [MemoryStorage.delete_memory] by id. *)
Definition delete_memory (rows : list Row) (memory_id : nat) : list Row :=
  filter (fun r => negb (Nat.eqb (row_memory_id r) memory_id)) rows.

(** [MemoryManager.cleanup_old_memories]; [None] when it raises. *)
Definition cleanup_old_memories (rows : list Row) (now : Z) (user_id : string)
    (max_age_days : option Z) (min_decay_score : R) : option (list Row * nat) :=
  let days := dflt memory_decay_days max_age_days in
  match get_user_memories rows user_id None 1000 with
  | None => None
  | Some memories =>
      let cutoff := now - days * seconds_per_day in
      Some (fold_left
              (fun acc m =>
                 if should_delete cutoff min_decay_score m
                 then (delete_memory (fst acc) (row_memory_id m), S (snd acc))
                 else acc)
              memories (rows, 0%nat))
  end.

End Lifecycle.

(* ------------------------------------------------------------------ *)
(** ** Retriever ([app/services/retriever.py]) *)
Module Retriever.
Local Open Scope R_scope.

Inductive MemoryTier := HOT | WARM | COLD.

(** [HOT_THRESHOLD], [WARM_THRESHOLD], [COLD_SIMILARITY_MIN] *)
Definition HOT_THRESHOLD : Z := 50.
Definition WARM_THRESHOLD : Z := 500.
Definition COLD_SIMILARITY_MIN : R := 75 / 100.

Definition tier_of (turn_distance : Z) : MemoryTier :=
  if (turn_distance <=? HOT_THRESHOLD)%Z then HOT
  else if (turn_distance <=? WARM_THRESHOLD)%Z then WARM
  else COLD.

(** [not (tier == COLD and similarity_score < COLD_SIMILARITY_MIN)] *)
Definition tier_gate (tier : MemoryTier) (similarity_score : R) : bool :=
  match tier with
  | COLD => negb (Rltb similarity_score COLD_SIMILARITY_MIN)
  | _ => true
  end.

(** [_detect_query_type] *)
Definition detect_query_type (query_text : string) : string :=
  let query_lower := Str.lower query_text in
  if Str.any_in ["schedule"; "meeting"; "appointment"; "calendar"; "call";
                 "tomorrow"; "today"; "next week"; "remind"]%string query_lower
  then "schedule"%string
  else if Str.any_in ["my name"; "who am i"; "about me"; "my job"; "my location";
                      "my preference"; "what do you know"]%string query_lower
  then "personal"%string
  else "general"%string.

Record Weights := {
  alpha : R; beta : R; gamma : R; delta : R; epsilon : R; zeta : R }.

(** [_get_adaptive_weights] *)
Definition get_adaptive_weights (query_type : string) : Weights :=
  if String.eqb query_type "schedule" then
    {| alpha := 40/100; beta := 20/100; gamma := 10/100;
       delta := 10/100; epsilon := 10/100; zeta := 10/100 |}
  else if String.eqb query_type "personal" then
    {| alpha := 45/100; beta := 10/100; gamma := 15/100;
       delta := 15/100; epsilon := 10/100; zeta := 5/100 |}
  else
    {| alpha := 45/100; beta := 15/100; gamma := 10/100;
       delta := 10/100; epsilon := 15/100; zeta := 5/100 |}.

(** [_calculate_recency_score] *)
Definition calculate_recency_score (source_turn current_turn : Z) : R :=
  if (current_turn <=? 0)%Z then 1
  else
    let turn_distance := (current_turn - source_turn)%Z in
    if (turn_distance <=? 0)%Z then 1
    else Rmax ((993 / 1000) ^ Z.to_nat turn_distance) (1 / 10).

(** [_calculate_relevance_score] as [search] calls it (weights always
    given; [access] and [importance] are unused by the formula).
    [math.log(1 + access_count)] raises when its argument is not positive:
    [None]. *)
Definition calculate_relevance_score (similarity recency access confidence importance : R)
    (access_count : Z) (is_conflicted : bool) (decay_penalty : R) (weights : Weights)
    : option R :=
  if (1 + access_count <=? 0)%Z then None
  else
    let usage_boost := ln (IZR (1 + access_count)) in
    let conflict_penalty := if is_conflicted then 1 else 0 in
    let score :=
      alpha weights * similarity + beta weights * recency + gamma weights * usage_boost
      + delta weights * confidence - epsilon weights * conflict_penalty
      - zeta weights * decay_penalty in
    Some (Rmin (Rmax score 0) 1).

(** One ANN match with the metadata [create_memory] upserts (entries may be
    absent, [None]). *)
Record Match := {
  match_id : string;
  match_score : R;
  md_type : option MemoryType;
  md_confidence : option R;
  md_source_turn : option Z;
  md_access_count : option Z;
  md_is_conflicted : option bool;
  md_importance_score : option R;
  md_importance_level : option string;
  md_content : option string;
  md_created_at : option Z
}.

(** [MemorySearchQuery] *)
Record MemorySearchQuery := {
  q_user_id : string;
  q_query : string;
  q_memory_types : option (list MemoryType);
  q_top_k : Z;
  q_min_confidence : R;
  q_current_turn : option Z
}.

(** The field constraints of [MemorySearchQuery] (pydantic rejects the
    object otherwise). *)
Definition validate_search_query (q : MemorySearchQuery) : bool :=
  (1 <=? q_top_k q)%Z && (q_top_k q <=? 50)%Z
  && (1 <=? String.length (q_user_id q))%nat && (String.length (q_user_id q) <=? 255)%nat
  && (1 <=? String.length (q_query q))%nat && (String.length (q_query q) <=? 500)%nat
  && match q_current_turn q with Some c => (0 <=? c)%Z | None => true end
  && Rleb 0 (q_min_confidence q) && Rleb (q_min_confidence q) 1.

(** [MemoryMetadata] as built by [search]. *)
Record SearchMetadata := {
  sm_source_turn : Z;
  sm_created_at : Z;
  sm_last_accessed : Z;
  sm_access_count : Z;
  sm_confidence : R;
  sm_decay_score : R;
  sm_importance_score : R;
  sm_importance_level : string
}.

(** [Memory] as built by [search] ([embedding=None]). *)
Record SearchMemory := {
  sme_memory_id : string;
  sme_user_id : string;
  sme_type : MemoryType;
  sme_content : string;
  sme_metadata : SearchMetadata
}.

(** [MemorySearchResult] *)
Record MemorySearchResult := {
  memory : SearchMemory;
  relevance_score : R;
  similarity_score : R;
  recency_score : R;
  access_score : R
}.

Definition in01 (x : R) : bool := Rleb 0 x && Rleb x 1.

(** The pydantic validators met while building one result; a failure is
    an exception caught by the per-match [except] ([continue]). *)
Definition valid_result (res : MemorySearchResult) : bool :=
  let mem := memory res in
  let md := sme_metadata mem in
  in01 (sm_confidence md) && in01 (sm_decay_score md) && in01 (sm_importance_score md)
  && (0 <=? sm_access_count md)%Z
  && (1 <=? String.length (sme_user_id mem))%nat && (String.length (sme_user_id mem) <=? 255)%nat
  && (1 <=? String.length (sme_content mem))%nat && (String.length (sme_content mem) <=? 5000)%nat
  && in01 (relevance_score res)
  && Rleb (-1) (similarity_score res) && Rleb (similarity_score res) 1
  && in01 (recency_score res) && in01 (access_score res).

(** The decay penalty of [search]: [min(1.0, turn_age / 1000.0)]. *)
Definition decay_penalty_of (current_turn source_turn : Z) : R :=
  let turn_age := if (0 <? current_turn)%Z then (current_turn - source_turn)%Z else 0%Z in
  Rmin 1 (IZR turn_age / 1000).

(** The body of the [for match in search_results.matches] loop of
    [MemoryRetriever.search]: [None] is a [continue] (a filter, or an
    exception caught by the loop's [except]).  [now] is [utcnow()]. *)
Definition process_match (now : Z) (query : MemorySearchQuery) (adaptive_weights : Weights)
    (m : Match) : option MemorySearchResult :=
  let memory_type := dflt FACT (md_type m) in
  let type_filtered :=
    match q_memory_types query with
    | Some ((_ :: _) as ts) => negb (existsb (MemoryType_eqb memory_type) ts)
    | _ => false   (* [None] or the falsy empty list *)
    end in
  if type_filtered then None else
  let confidence := dflt (7/10) (md_confidence m) in
  if Rltb confidence (q_min_confidence query) then None else
  let similarity_score := match_score m in
  let importance_score := dflt (7/10) (md_importance_score m) in
  let importance_level := dflt "medium"%string (md_importance_level m) in
  let source_turn := dflt 0%Z (md_source_turn m) in
  (* [current_turn = query.current_turn or 0] *)
  let recency_score := calculate_recency_score source_turn (dflt 0%Z (q_current_turn query)) in
  let access_count := dflt 0%Z (md_access_count m) in
  let is_conflicted := dflt false (md_is_conflicted m) in
  match q_current_turn query with
  | None => None   (* [None > 0] raises a TypeError *)
  | Some ct =>
      let current_turn := if (0 <? ct)%Z then ct else 0%Z in
      let turn_distance := (current_turn - source_turn)%Z in
      let tier := tier_of turn_distance in
      if negb (tier_gate tier similarity_score) then None else
      let decay_penalty := decay_penalty_of current_turn source_turn in
      let access_score := confidence in
      match calculate_relevance_score similarity_score recency_score access_score confidence
              importance_score access_count is_conflicted decay_penalty adaptive_weights with
      | None => None
      | Some relevance_score =>
          let created_at := dflt now (md_created_at m) in
          let memory_metadata :=
            {| sm_source_turn := source_turn; sm_created_at := created_at;
               sm_last_accessed := created_at; sm_access_count := 0%Z;
               sm_confidence := confidence; sm_decay_score := recency_score;
               sm_importance_score := importance_score;
               sm_importance_level := importance_level |} in
          let mem :=
            {| sme_memory_id := match_id m; sme_user_id := q_user_id query;
               sme_type := memory_type; sme_content := dflt ""%string (md_content m);
               sme_metadata := memory_metadata |} in
          let result :=
            {| memory := mem; relevance_score := relevance_score;
               similarity_score := similarity_score; recency_score := recency_score;
               access_score := access_score |} in
          if valid_result result then Some result else None
      end
  end.

(** [results.sort(key=lambda x: x.relevance_score, reverse=True)]
    (stable insertion sort). *)
Fixpoint insert_by_relevance (x : MemorySearchResult) (l : list MemorySearchResult)
    : list MemorySearchResult :=
  match l with
  | [] => [x]
  | y :: ys =>
      if Rleb (relevance_score y) (relevance_score x) then x :: l
      else y :: insert_by_relevance x ys
  end.

Fixpoint sort_by_relevance (l : list MemorySearchResult) : list MemorySearchResult :=
  match l with
  | [] => []
  | x :: xs => insert_by_relevance x (sort_by_relevance xs)
  end.

(** The calls [search] makes to its collaborators. *)
Inductive Call :=
| EmbedCall (text : string)
| AnnQuery (user_id : string) (top_k : Z).

Section Search.
(** The embedder and the ANN index; [None] is a raised error. *)
Variable embed : string -> option (list R).
Variable ann_query : list R -> string -> Z -> option (list Match).
Variable now : Z.

(** [MemoryRetriever.search]: the calls made, and the results returned
    (an exception anywhere outside the loop returns [[]]). *)
Definition search (query : MemorySearchQuery) : list Call * list MemorySearchResult :=
  let query_type := detect_query_type (q_query query) in
  let adaptive_weights := get_adaptive_weights query_type in
  let calls0 := [EmbedCall (q_query query)] in
  match embed (q_query query) with
  | None => (calls0, [])
  | Some query_embedding =>
      let k := Z.min (q_top_k query * 3) 50 in
      let calls := (calls0 ++ [AnnQuery (q_user_id query) k])%list in
      match ann_query query_embedding (q_user_id query) k with
      | None => (calls, [])
      | Some matches =>
          let results := flat_map (fun m => match process_match now query adaptive_weights m with
                                             | Some r => [r] | None => [] end) matches in
          (calls, firstn (Z.to_nat (q_top_k query)) (sort_by_relevance results))
      end
  end.

End Search.
End Retriever.

(* ------------------------------------------------------------------ *)
(** ** Turn orchestrator: from the retrieved set to the prompt
    ([process_conversation], [app/api/routes.py], and [get_system_prompt],
    [app/prompts.py]).  Scores are rationals here. *)
Module Orchestrator.
Local Open Scope string_scope.

(** The fields of a [MemorySearchResult] that [process_conversation] reads. *)
Record Scored := {
  sc_memory_id : string;
  sc_content : string;
  sc_type : MemoryType;
  sc_source_turn : Z;
  sc_created_at : Z;
  sc_confidence : Q;
  sc_relevance_score : Q
}.

(** [ActiveMemory] *)
Record ActiveMemory := {
  am_memory_id : string;
  am_content : string;
  am_type : MemoryType;
  am_origin_turn : Z;
  am_last_used_turn : Z;
  am_confidence : Q;
  am_relevance_score : Q
}.

(** The additive directive slot of [get_system_prompt]. *)
Inductive Directive :=
| NoDirective
| ComprehensiveDirective
| KnowledgeDirective
| ScheduleDirective
| ReturningUserGreeting (user_name : string) (memory_count : nat)
| ReturningUser (memory_count : nat).

(** The insertion points of [DUAL_MEMORY_SYSTEM_PROMPT]. *)
Record Prompt := {
  p_turn_number : Z;
  p_user_id : string;
  p_memory_count : nat;
  p_memory_context : string;
  p_silence_mode : bool;
  p_special_directive : Directive
}.

Record TurnOutcome := {
  t_prompt : Prompt;
  t_active_memories : list ActiveMemory;
  t_memories_used : list string
}.

Definition MemoryType_value (t : MemoryType) : string :=
  match t with
  | PREFERENCE => "preference" | FACT => "fact" | COMMITMENT => "commitment"
  | INSTRUCTION => "instruction" | ENTITY => "entity"
  end.

Fixpoint digits (fuel n : nat) (acc : string) : string :=
  match fuel with
  | O => acc
  | S f =>
      let acc' := String (ascii_of_nat (48 + n mod 10)) acc in
      if (n <? 10)%nat then acc' else digits f (n / 10) acc'
  end.
(** [str(n)] *)
Definition nat_to_string (n : nat) : string := digits (S n) n "".

Definition nl : string := String (ascii_of_nat 10) "".
Definition dquote : ascii := ascii_of_nat 34.

Fixpoint join (sep : string) (l : list string) : string :=
  match l with
  | [] => ""
  | [x] => x
  | x :: xs => x ++ sep ++ join sep xs
  end.

Definition qlt (a b : Q) : bool := negb (Qle_bool b a).
Definition qmax (a b : Q) : Q := if Qle_bool a b then b else a.

(** [max([r.relevance_score for r in search_results], default=0.0)] *)
Definition max_relevance (rs : list Scored) : Q :=
  match rs with
  | [] => 0
  | r :: rs' => fold_left (fun acc x => qmax acc (sc_relevance_score x)) rs' (sc_relevance_score r)
  end.

Section Turn.
(** [format_relative_time] *)
Variable format_relative_time : string -> Z -> string.

(** The memory block formatted from the retrieved set (step 1). *)
Definition format_memory_context (message : string) (search_results : list Scored) : string :=
  match search_results with
  | [] => "No relevant memories found from previous turns."
  | _ =>
      let query_text := Str.lower message in
      if Str.any_in ["schedule"; "meeting"; "appointment"; "calendar"; "plans"] query_text then
        join nl (("## YOUR SCHEDULED MEETINGS & COMMITMENTS" ++ nl)
                 :: map (fun r => "• " ++ format_relative_time (sc_content r) (sc_created_at r))
                        (firstn 10 search_results))
      else
        let display_count := if Str.any_in ["each and every"; "everything"; "all details"] query_text
                             then 30%nat else 15%nat in
        let shown := firstn display_count search_results in
        join nl (("## RELEVANT MEMORIES (" ++ nat_to_string (List.length shown) ++ " found)" ++ nl)
                 :: (fix lines (i : nat) (l : list Scored) : list string :=
                       match l with
                       | [] => []
                       | r :: l' =>
                           (nat_to_string i ++ ". " ++ format_relative_time (sc_content r) (sc_created_at r)
                            ++ " (Type: " ++ MemoryType_value (sc_type r) ++ ")") :: lines (S i) l'
                       end) 1%nat shown)
  end.

(** The returning-user name taken from the retrieved set. *)
Fixpoint extract_user_name (search_results : list Scored) : option string :=
  match search_results with
  | [] => None
  | r :: rs =>
      let content_lower := Str.lower (sc_content r) in
      if Str.contains "user's name is" content_lower || Str.contains "name is" content_lower then
        let parts := Str.strip (Str.before_char "," (Str.split_last "name is" (sc_content r))) in
        if negb (String.eqb parts "") && (Str.word_count parts <=? 2)%nat
        then Some (Str.remove_char dquote (Str.remove_char "'" parts))
        else extract_user_name rs
      else extract_user_name rs
  end.

(** [get_system_prompt]'s choice of the additive directive. *)
Definition special_directive (is_comprehensive is_knowledge_query is_schedule_query is_greeting : bool)
    (user_name : option string) (memory_count : nat) : Directive :=
  if is_comprehensive then ComprehensiveDirective
  else if is_knowledge_query then KnowledgeDirective
  else if is_schedule_query then ScheduleDirective
  else match is_greeting, user_name with
       | true, Some n => if String.eqb n "" then
                           (if (0 <? memory_count)%nat then ReturningUser memory_count else NoDirective)
                         else ReturningUserGreeting n memory_count
       | true, None => if (0 <? memory_count)%nat then ReturningUser memory_count else NoDirective
       | false, _ => NoDirective
       end.

Definition to_active (turn_number : Z) (r : Scored) : ActiveMemory :=
  {| am_memory_id := sc_memory_id r; am_content := sc_content r; am_type := sc_type r;
     am_origin_turn := sc_source_turn r; am_last_used_turn := turn_number;
     am_confidence := sc_confidence r; am_relevance_score := sc_relevance_score r |}.

(** [process_conversation] from the retrieved set (whichever retrieval
    branch produced it) to the system prompt and the response's memory
    lists. *)
Definition process_turn (user_id message : string) (turn_number : Z)
    (include_memories : bool) (retrieved : list Scored) : TurnOutcome :=
  let search_results := if include_memories then retrieved else [] in
  let memories_used := map sc_memory_id search_results in
  let memory_context :=
    if include_memories then format_memory_context message search_results else "" in
  let query_text := Str.lower message in
  let is_schedule_query :=
    Str.any_in ["schedule"; "meeting"; "appointment"; "calendar"; "tomorrow"; "today"] query_text in
  let is_comprehensive :=
    Str.any_in ["each and every"; "everything"; "all details"; "comprehensive";
                "full details"; "complete information"; "tell me everything"] query_text in
  let is_knowledge_query :=
    Str.any_in ["summarize"; "summarise"; "summary"; "tell me about"; "what is";
                "explain"; "describe"; "book"] query_text in
  let is_greeting :=
    Str.any_in ["hi"; "hello"; "hey"; "greetings"; "good morning"; "good afternoon";
                "good evening"; "what's up"; "howdy"; "sup"] query_text
    && (Str.word_count query_text <=? 5)%nat in
  let user_name :=
    match search_results with
    | [] => None
    | _ => if is_greeting then extract_user_name search_results else None
    end in
  let silence_mode :=
    qlt (max_relevance search_results) (3 # 10) && negb is_comprehensive && negb is_knowledge_query in
  let memory_context := if silence_mode then "" else memory_context in
  let search_results := if silence_mode then [] else search_results in
  let prompt :=
    {| p_turn_number := turn_number; p_user_id := user_id;
       p_memory_count := List.length search_results; p_memory_context := memory_context;
       p_silence_mode := silence_mode;
       p_special_directive :=
         special_directive is_comprehensive is_knowledge_query is_schedule_query is_greeting
           user_name (List.length search_results) |} in
  {| t_prompt := prompt;
     t_active_memories := map (to_active turn_number) (firstn 10 search_results);
     t_memories_used := memories_used |}.

End Turn.
End Orchestrator.

(* ================================================================== *)
(* ------------------------------------------------------------------ *)
(** ** Memory objects and the Redis cache of [MemoryStorage]
    ([app/models/memory.py], [app/services/storage.py]) *)
Module Storage.
Local Open Scope string_scope.

(** [MemoryMetadata] (tags and entities have no column in the row model
    and are left out). *)
Record MemoryMetadata := {
  source_turn : Z;
  created_at : Z;
  last_accessed : Z;
  access_count : Z;
  confidence : R;
  decay_score : R;
  importance_score : R;
  importance_level : string;
  context : list (string * string)
}.

(** [Memory] *)
Record Memory := {
  memory_id : nat;
  user_id : string;
  type_ : MemoryType;
  content : string;
  embedding : option (list R);
  metadata : MemoryMetadata
}.

Definition in01 (x : R) : bool := Rleb 0 x && Rleb x 1.

(** The field constraints and validators of [MemoryMetadata] and [Memory]. *)
Definition metadata_valid (md : MemoryMetadata) : bool :=
  (0 <=? access_count md)%Z && in01 (confidence md) && in01 (decay_score md)
  && in01 (importance_score md).

Definition memory_valid (m : Memory) : bool :=
  (1 <=? String.length (user_id m))%nat && (String.length (user_id m) <=? 255)%nat
  && (1 <=? String.length (content m))%nat && (String.length (content m) <=? 5000)%nat
  && match embedding m with
     | Some e => Nat.eqb (List.length e) memory_embedding_dimension
     | None => true
     end
  && metadata_valid (metadata m).


(** The reconstruction of a [Memory] from a selected row in [get_memory]:
    [last_accessed=row[7] or row[6]], [access_count=row[8] or 0],
    [decay_score=row[10] or 1.0]; importance and context are not selected
    and take their defaults.  A NULL embedding makes [row[4].strip] raise,
    a validator failure raises: [None]. *)
Definition memory_of_row (r : Row) : option Memory :=
  match row_embedding r with
  | None => None
  | Some e =>
      let m := {| memory_id := row_memory_id r;
                  user_id := row_user_id r;
                  type_ := row_type r;
                  content := row_content r;
                  embedding := Some e;
                  metadata := {| source_turn := row_source_turn r;
                                 created_at := row_created_at r;
                                 last_accessed := dflt (row_created_at r) (row_last_accessed r);
                                 access_count := row_access_count r;
                                 confidence := row_confidence r;
                                 decay_score := Lifecycle.fetched_decay_score r;
                                 importance_score := 7/10;
                                 importance_level := "medium";
                                 context := [] |} |} in
      if memory_valid m then Some m else None
  end.

(** [settings.redis_cache_ttl], in seconds. *)
Definition redis_cache_ttl : Z := 3600.

(** The Redis keys [memory:<id>]: the cached memory and the time its
    entry expires.  (The [user_memories:<id>] keys that
    [_invalidate_user_cache] deletes are never written.) *)
Definition Cache := list (nat * (Memory * Z)).

(** [_get_cached_memory] at time [now]. *)
Definition cache_get (c : Cache) (mid : nat) (now : Z) : option Memory :=
  match find (fun e => Nat.eqb (fst e) mid) c with
  | Some (_, (m, expiry)) => if (now <? expiry)%Z then Some m else None
  | None => None
  end.

Definition cache_delete (c : Cache) (mid : nat) : Cache :=
  filter (fun e => negb (Nat.eqb (fst e) mid)) c.

(** [_cache_memory]: [SETEX memory:<id> redis_cache_ttl <json>]. *)
Definition cache_memory (c : Cache) (m : Memory) (now : Z) : Cache :=
  (memory_id m, (m, now + redis_cache_ttl)%Z) :: cache_delete c (memory_id m).

(** The PostgreSQL rows and the Redis cache. *)
Record Backend := { b_store : Store; b_cache : Cache }.

Definition with_rows (b : Backend) (rows : list Row) : Backend :=
  {| b_store := {| st_rows := rows; st_hash_index := st_hash_index (b_store b) |};
     b_cache := b_cache b |}.

Definition with_cache (b : Backend) (c : Cache) : Backend :=
  {| b_store := b_store b; b_cache := c |}.

(** [get_memory]: the cache first, then [SELECT ... WHERE memory_id = ...]
    (caching what it reads). *)
Definition get_memory (b : Backend) (mid : nat) (now : Z) : Backend * option Memory :=
  match cache_get (b_cache b) mid now with
  | Some m => (b, Some m)
  | None =>
      match find (fun r => Nat.eqb (row_memory_id r) mid) (st_rows (b_store b)) with
      | None => (b, None)
      | Some r =>
          match memory_of_row r with
          | None => (b, None)
          | Some m => (with_cache b (cache_memory (b_cache b) m now), Some m)
          end
      end
  end.

(** [MemoryUpdate] *)
Record MemoryUpdate := {
  mu_content : option string;
  mu_confidence : option R;
  mu_tags : option (list string);
  mu_entities : option (list string)
}.

Definition set_content (m : Memory) (c : string) (e : list R) : Memory :=
  {| memory_id := memory_id m; user_id := user_id m; type_ := type_ m;
     content := c; embedding := Some e; metadata := metadata m |}.

Definition set_confidence (m : Memory) (x : R) : Memory :=
  let md := metadata m in
  {| memory_id := memory_id m; user_id := user_id m; type_ := type_ m;
     content := content m; embedding := embedding m;
     metadata := {| source_turn := source_turn md; created_at := created_at md;
                    last_accessed := last_accessed md; access_count := access_count md;
                    confidence := x; decay_score := decay_score md;
                    importance_score := importance_score md;
                    importance_level := importance_level md; context := context md |} |}.

(** The [SET] clause of [update_memory] on one row. *)
Definition update_row (r : Row) (ce : option (string * list R)) (conf : option R) : Row :=
  {| row_memory_id := row_memory_id r;
     row_user_id := row_user_id r;
     row_type := row_type r;
     row_content := match ce with Some (c, _) => c | None => row_content r end;
     row_embedding := match ce with Some (_, e) => Some e | None => row_embedding r end;
     row_source_turn := row_source_turn r;
     row_created_at := row_created_at r;
     row_last_accessed := row_last_accessed r;
     row_access_count := row_access_count r;
     row_confidence := dflt (row_confidence r) conf;
     row_decay_score := row_decay_score r;
     row_importance_level := row_importance_level r;
     row_context := row_context r;
     row_content_hash := row_content_hash r |}.

Section Operations.
(** The embedder; [None] is a raised error. *)
Variable embed : string -> option (list R).


(** [MemoryStorage.update_memory]: [Some (b, None)] is "not found",
    [None] a raised error (the embedder, or pgvector refusing an embedding
    that is not [vector(384)]). *)
Definition update_memory (b : Backend) (mid : nat) (upd : MemoryUpdate) (now : Z)
    : option (Backend * option Memory) :=
  let (b1, got) := get_memory b mid now in
  match got with
  | None => Some (b1, None)
  | Some memory =>
      let ce := match mu_content upd with
                | None => Some None
                | Some c => option_map (fun e => Some (c, e)) (embed c)
                end in
      match ce with
      | None => None
      | Some ce =>
          let memory := match ce with Some (c, e) => set_content memory c e | None => memory end in
          let memory := match mu_confidence upd with
                        | Some x => set_confidence memory x | None => memory end in
          match ce, mu_confidence upd, mu_tags upd, mu_entities upd with
          | None, None, None, None => Some (b1, Some memory)   (* [if not update_fields] *)
          | _, _, _, _ =>
              if match ce with
                 | Some (_, e) => negb (Nat.eqb (List.length e) memory_embedding_dimension)
                 | None => false
                 end
              then None
              else
                let rows := map (fun r => if Nat.eqb (row_memory_id r) mid
                                          then update_row r ce (mu_confidence upd) else r)
                                (st_rows (b_store b1)) in
                Some (with_cache (with_rows b1 rows) (cache_delete (b_cache b1) mid), Some memory)
          end
      end
  end.

End Operations.

(** [MemoryStorage.delete_memory]: [False] when [get_memory] finds nothing;
    otherwise [DELETE ... WHERE memory_id = ...] and the cache key is
    removed. *)
Definition delete_memory (b : Backend) (mid : nat) (now : Z) : Backend * bool :=
  let (b1, got) := get_memory b mid now in
  match got with
  | None => (b1, false)
  | Some _ =>
      (with_cache (with_rows b1 (Lifecycle.delete_memory (st_rows (b_store b1)) mid))
                  (cache_delete (b_cache b1) mid), true)
  end.

End Storage.

(* ------------------------------------------------------------------ *)
(** ** More of the lifecycle ([app/utils/memory_lifecycle.py]) *)
Module LifecycleExtra.
Local Open Scope string_scope.

(** [should_memory_expire]: [turn_number] and [current_turn] are the
    optional turn arguments; [age.days] is the floor of the age in days. *)
Definition should_memory_expire (memory_type : MemoryType) (created_at : Z)
    (turn_number current_turn : option Z) (now : Z) : bool :=
  match Lifecycle.MEMORY_TTL_POLICY memory_type with
  | None => false
  | Some ttl =>
      match turn_number, current_turn with
      | Some tn, Some ct => (ttl <? ct - tn)%Z
      | _, _ => (ttl <? (now - created_at) / Lifecycle.seconds_per_day)%Z
      end
  end.

(** The columns of the [memories] table: the [CREATE TABLE] of
    [app/database.py] and the columns the migrations add. *)
Definition memories_columns : list string :=
  ["memory_id"; "user_id"; "type"; "content"; "embedding"; "source_turn"; "created_at";
   "last_accessed"; "access_count"; "confidence"; "importance_score"; "importance_level";
   "decay_score"; "tags"; "entities"; "context";
   "content_hash"; "last_used_turn"].

Definition has_column (c : string) : bool := existsb (String.eqb c) memories_columns.

(** [jsonb_set(COALESCE(context, '{}'), '{fulfilled}', 'true')] *)
Definition set_fulfilled (ctx : list (string * string)) : list (string * string) :=
  ("fulfilled", "true") :: filter (fun kv => negb (String.eqb (fst kv) "fulfilled")) ctx.

Definition mark_row (r : Row) : Row :=
  {| row_memory_id := row_memory_id r; row_user_id := row_user_id r; row_type := row_type r;
     row_content := row_content r; row_embedding := row_embedding r;
     row_source_turn := row_source_turn r; row_created_at := row_created_at r;
     row_last_accessed := row_last_accessed r; row_access_count := row_access_count r;
     row_confidence := row_confidence r; row_decay_score := row_decay_score r;
     row_importance_level := row_importance_level r;
     row_context := set_fulfilled (row_context r);
     row_content_hash := row_content_hash r |}.

(** [mark_commitment_fulfilled]: the statement names the columns
    [context], [updated_at], [memory_id] and [type]; PostgreSQL refuses a
    statement that names a column the table lacks, and the [except]
    rolls back and returns [False]. *)
Definition mark_commitment_fulfilled (rows : list Row) (memory_id : nat) : list Row * bool :=
  if forallb has_column ["context"; "updated_at"; "memory_id"; "type"] then
    (map (fun r => if Nat.eqb (row_memory_id r) memory_id && MemoryType_eqb (row_type r) COMMITMENT
                   then mark_row r else r) rows, true)
  else (rows, false).

Section Fulfilled.
(** The value an [updated_at] column would hold for a row. *)
Variable updated_at : Row -> Z.

(** [cleanup_fulfilled_commitments]: [DELETE ... WHERE type = 'commitment'
    AND context->>'fulfilled' = 'true' AND updated_at < :cutoff_date
    [AND user_id = :user_id]]; a refused statement returns [0]. *)
Definition cleanup_fulfilled_commitments (rows : list Row) (now : Z) (user_id : option string)
    (days_after_fulfillment : Z) : list Row * nat :=
  let cutoff_date := (now - days_after_fulfillment * Lifecycle.seconds_per_day)%Z in
  let doomed r :=
    MemoryType_eqb (row_type r) COMMITMENT
    && match find (fun kv => String.eqb (fst kv) "fulfilled") (row_context r) with
       | Some (_, v) => String.eqb v "true"
       | None => false
       end
    && (updated_at r <? cutoff_date)%Z
    && match user_id with
       | Some u => if String.eqb u "" then true else String.eqb (row_user_id r) u
       | None => true
       end in
  if forallb has_column ["type"; "context"; "updated_at"; "user_id"] then
    (filter (fun r => negb (doomed r)) rows, List.length (filter doomed rows))
  else (rows, 0%nat).
End Fulfilled.

End LifecycleExtra.

(* ------------------------------------------------------------------ *)
(** ** [MemoryManager] ([app/services/memory_manager.py]) and the storage
    read it uses *)
Module Manager.
Local Open Scope string_scope.

(** [MemoryStorage.get_user_memories] building full [Memory] objects (any
    row failing to build makes it raise: [None]). *)
Definition fetch_user_memories (rows : list Row) (user_id : string)
    (memory_type : option MemoryType) (limit : nat) : option (list Storage.Memory) :=
  let sel :=
    firstn limit
      (sort_created_desc
         (filter (fun r => String.eqb (row_user_id r) user_id &&
                           match memory_type with
                           | Some t => MemoryType_eqb (row_type r) t
                           | None => true
                           end) rows)) in
  fold_right (fun r acc => match Storage.memory_of_row r, acc with
                           | Some m, Some ms => Some (m :: ms)
                           | _, _ => None
                           end) (Some []) sel.

(** The attributes [MemoryManager.__init__] sets. *)
Definition MemoryManager_attributes : list string := ["storage"; "retriever"; "extractor"].

Definition has_attribute (a : string) : bool := existsb (String.eqb a) MemoryManager_attributes.

Definition truthy_embedding (e : option (list R)) : bool :=
  match e with Some (_ :: _) => true | _ => false end.

Section Conflicts.
Variable embed : string -> option (list R).
(** [self.embedder.similarity] were it there, and the LLM's
    [resolve_conflict] ([None] for a falsy answer). *)
Variable similarity : list R -> list R -> R.
Variable resolve_conflict : string -> string -> option string.
Variable now : Z.

(** [for mem2 in mem_list[i + 1:]]: the backend, the count and whether
    an exception left the loop. *)
Fixpoint inner_loop (b : Storage.Backend) (cnt : nat) (mem1 : Storage.Memory)
    (rest : list Storage.Memory) : Storage.Backend * nat * bool :=
  match rest with
  | [] => (b, cnt, false)
  | mem2 :: rest' =>
      if negb (truthy_embedding (Storage.embedding mem1))
         || negb (truthy_embedding (Storage.embedding mem2))
      then inner_loop b cnt mem1 rest'
      else if negb (has_attribute "embedder") then (b, cnt, true)   (* AttributeError *)
      else
        let s := similarity (dflt [] (Storage.embedding mem1)) (dflt [] (Storage.embedding mem2)) in
        if Rltb (85/100) s && Rltb s (95/100) then
          match resolve_conflict (Storage.content mem1) (Storage.content mem2) with
          | None => inner_loop b cnt mem1 rest'
          | Some resolved_content =>
              let newer := if (Storage.source_turn (Storage.metadata mem2)
                               <? Storage.source_turn (Storage.metadata mem1))%Z
                           then mem1 else mem2 in
              let older := if Nat.eqb (Storage.memory_id newer) (Storage.memory_id mem1)
                           then mem2 else mem1 in
              match Storage.update_memory embed b (Storage.memory_id newer)
                      {| Storage.mu_content := Some resolved_content; Storage.mu_confidence := None;
                         Storage.mu_tags := None; Storage.mu_entities := None |} now with
              | None => (b, cnt, true)
              | Some (b1, _) =>
                  let b2 := fst (Storage.delete_memory b1 (Storage.memory_id older) now) in
                  inner_loop b2 (S cnt) mem1 rest'
              end
          end
        else inner_loop b cnt mem1 rest'
  end.

Fixpoint pairs_loop (b : Storage.Backend) (cnt : nat) (mem_list : list Storage.Memory)
    : Storage.Backend * nat * bool :=
  match mem_list with
  | [] => (b, cnt, false)
  | mem1 :: rest =>
      match inner_loop b cnt mem1 rest with
      | (b1, cnt1, false) => pairs_loop b1 cnt1 rest
      | raised => raised
      end
  end.

Fixpoint add_to_group (m : Storage.Memory) (groups : list (MemoryType * list Storage.Memory))
    : list (MemoryType * list Storage.Memory) :=
  match groups with
  | [] => [(Storage.type_ m, [m])]
  | (t, l) :: gs =>
      if MemoryType_eqb t (Storage.type_ m) then (t, (l ++ [m])%list) :: gs
      else (t, l) :: add_to_group m gs
  end.

(** [by_type]: a dictionary in first-insertion order. *)
Definition group_by_type (ms : list Storage.Memory) : list (MemoryType * list Storage.Memory) :=
  fold_left (fun gs m => add_to_group m gs) ms [].

Fixpoint groups_loop (b : Storage.Backend) (cnt : nat)
    (groups : list (MemoryType * list Storage.Memory)) : Storage.Backend * nat * bool :=
  match groups with
  | [] => (b, cnt, false)
  | (_, l) :: gs =>
      match pairs_loop b cnt l with
      | (b1, cnt1, false) => groups_loop b1 cnt1 gs
      | raised => raised
      end
  end.

(** [resolve_conflicts]: the backend after it and the count returned
    ([0] after an exception). *)
Definition resolve_conflicts (b : Storage.Backend) (user_id : string) : Storage.Backend * nat :=
  match fetch_user_memories (st_rows (Storage.b_store b)) user_id None 500 with
  | None => (b, 0%nat)
  | Some memories =>
      match groups_loop b 0 (group_by_type memories) with
      | (b1, _, true) => (b1, 0%nat)
      | (b1, cnt, false) => (b1, cnt)
      end
  end.
End Conflicts.


End Manager.

(* ------------------------------------------------------------------ *)
(** ** [MemoryRetriever.find_similar_memories] *)
Module Similar.
Local Open Scope string_scope.

Section FindSimilar.
(** The ANN index queried with a vector, a user filter and [top_k]. *)
Variable ann_query : list R -> string -> Z -> option (list Retriever.Match).
(** [UUID(match.id)] ([None] when it raises) and [str(memory.memory_id)]. *)
Variable parse_uuid : string -> option nat.
Variable str_uuid : nat -> string.
(** [datetime.utcnow()] *)
Variable now : Z.

(** One match of the loop: [None] is a [continue]. *)
Definition similar_of_match (memory : Storage.Memory) (threshold : R) (m : Retriever.Match)
    : option Storage.Memory :=
  if String.eqb (Retriever.match_id m) (str_uuid (Storage.memory_id memory)) then None
  else if Rltb (Retriever.match_score m) threshold then None
  else
    match parse_uuid (Retriever.match_id m) with
    | None => None
    | Some mid =>
        let sm := {| Storage.memory_id := mid;
                     Storage.user_id := Storage.user_id memory;
                     Storage.type_ := dflt FACT (Retriever.md_type m);
                     Storage.content := dflt "" (Retriever.md_content m);
                     Storage.embedding := None;
                     Storage.metadata :=
                       {| Storage.source_turn := dflt 0%Z (Retriever.md_source_turn m);
                          Storage.created_at := dflt now (Retriever.md_created_at m);
                          Storage.last_accessed := now;
                          Storage.access_count := 0;
                          Storage.confidence := dflt (7/10)%R (Retriever.md_confidence m);
                          Storage.decay_score := 1;
                          Storage.importance_score := 7/10;
                          Storage.importance_level := "medium";
                          Storage.context := [] |} |} in
        if Storage.memory_valid sm then Some sm else None
    end.

Definition find_similar_memories (memory : Storage.Memory) (threshold : R) : list Storage.Memory :=
  match Storage.embedding memory with
  | None | Some [] => []
  | Some e =>
      match ann_query e (Storage.user_id memory) 20 with
      | None => []
      | Some matches =>
          flat_map (fun m => match similar_of_match memory threshold m with
                             | Some s => [s] | None => [] end) matches
      end
  end.
End FindSimilar.
End Similar.

(* ------------------------------------------------------------------ *)
(** ** Memory endpoints and the extraction task ([app/api/routes.py]) *)
Module Routes.
Local Open Scope string_scope.

(** The outcome of a request: the response body, a 422 from FastAPI's
    parameter validation, or a 500 from an unhandled exception. *)
Inductive HttpOutcome (A : Type) :=
| Http200 (body : A)
| Http422
| Http500.
Arguments Http200 {A} body.
Arguments Http422 {A}.
Arguments Http500 {A}.

(** [search_memories]: [top_k] is checked by [Query(ge=1, le=100)], then a
    [MemorySearchQuery] with default fields is built and searched. *)
Definition search_memories (embed : string -> option (list R))
    (ann_query : list R -> string -> Z -> option (list Retriever.Match)) (now : Z)
    (user_id query : string) (top_k : Z) : HttpOutcome (list Retriever.MemorySearchResult) :=
  if negb ((1 <=? top_k)%Z && (top_k <=? 100)%Z) then Http422
  else
    let search_query := {| Retriever.q_user_id := user_id; Retriever.q_query := query;
                           Retriever.q_memory_types := None; Retriever.q_top_k := top_k;
                           Retriever.q_min_confidence := (1/2)%R;
                           Retriever.q_current_turn := None |} in
    if Retriever.validate_search_query search_query
    then Http200 (snd (Retriever.search embed ann_query now search_query))
    else Http500.   (* the ValidationError is not handled *)

(** A Python parameter: its name and whether it has a default. *)
Record PyParam := { pname : string; has_default : bool }.

(** Whether a call with [npos] positional arguments and the keyword
    arguments [kwargs] binds to the parameters (otherwise [TypeError]). *)
Definition binds (params : list PyParam) (npos : nat) (kwargs : list string) : bool :=
  (npos <=? List.length params)%nat
  && forallb (fun k => existsb (fun p => String.eqb (pname p) k) (skipn npos params)) kwargs
  && forallb (fun p => has_default p || existsb (String.eqb (pname p)) kwargs) (skipn npos params).

(** [MemoryManager.cleanup_old_memories(self, user_id, max_age_days=None,
    min_decay_score=0.1)] and [MemoryManager.apply_decay(self, user_id,
    current_turn)]. *)
Definition cleanup_old_memories_params : list PyParam :=
  [ {| pname := "user_id"; has_default := false |};
    {| pname := "max_age_days"; has_default := true |};
    {| pname := "min_decay_score"; has_default := true |} ].

Definition apply_decay_params : list PyParam :=
  [ {| pname := "user_id"; has_default := false |};
    {| pname := "current_turn"; has_default := false |} ].

(** [cleanup_old_memories] (route): [manager.cleanup_old_memories(
    current_user.user_id, days=days)], after [Query(90, ge=1, le=100)]. *)
Definition cleanup_old_memories_route (rows : list Row) (now : Z) (user_id : string) (days : Z)
    : list Row * HttpOutcome nat :=
  if negb ((1 <=? days)%Z && (days <=? 100)%Z) then (rows, Http422)
  else if binds cleanup_old_memories_params 1 ["days"] then
    match Lifecycle.cleanup_old_memories rows now user_id None (1/10)%R with
    | Some (rows', n) => (rows', Http200 n)
    | None => (rows, Http500)
    end
  else (rows, Http500).

(** [apply_memory_decay] (route): [manager.apply_decay()]; [apply_decay]
    only counts, so the rows are never written. *)
Definition apply_memory_decay_route (rows : list Row) : list Row * HttpOutcome nat :=
  if binds apply_decay_params 0 [] then (rows, Http200 0%nat) else (rows, Http500).

(** The methods and attributes of a [MemoryStorage] object. *)
Definition MemoryStorage_attributes : list string :=
  ["session"; "redis"; "embedder"; "pinecone_index"; "_cache_key"; "_user_cache_key";
   "_cache_memory"; "_get_cached_memory"; "_invalidate_user_cache"; "create_memory";
   "get_memory"; "update_memory"; "delete_memory"; "get_user_memories"; "get_user_stats"].

(** [list_memories] (route): [storage.list_memories(...)]. *)
Definition list_memories_route (rows : list Row) (user_id : string) (memory_type : option MemoryType)
    (limit : Z) : HttpOutcome (list Row) :=
  if negb ((1 <=? limit)%Z && (limit <=? 200)%Z) then Http422
  else if existsb (String.eqb "list_memories") MemoryStorage_attributes then
    match get_user_memories rows user_id memory_type (Z.to_nat limit) with
    | Some ms => Http200 ms
    | None => Http500
    end
  else Http500.   (* AttributeError *)

Section Extraction.
Variable embed : string -> option (list R).
Variable now : Z.


End Extraction.

End Routes.

(** * Properties *)

(** ** Memory store: exact-duplicate rejection *)

Definition zero_embedder (_ : string) : option (list R) :=
  Some (repeat 0%R memory_embedding_dimension).

Definition bangalore (turn : Z) : MemoryCreate :=
  {| mc_user_id := "U"; mc_type := FACT; mc_content := "User lives in Bangalore.";
     mc_source_turn := turn; mc_confidence := (9/10)%R; mc_context := [] |}%string.

(** The store after the content-hash migration: the unique index exists. *)
Definition migrated_empty_store : Store := {| st_rows := []; st_hash_index := true |}.

Definition rows_with (user content : string) (st : Store) : nat :=
  List.length (filter (fun r => String.eqb (row_user_id r) user && String.eqb (row_content r) content)
                      (st_rows st)).

(** C1 (code_bug): creating "User lives in Bangalore." for user U at turn 5
    and again at turn 7, on a store whose [(user_id, content_hash)] unique
    index exists, succeeds both times and leaves two rows with that content:
    [create_memory] never writes [content_hash], so the index never fires. *)
Theorem create_memory_same_content_twice :
  exists st1 r1 st2 r2,
    create_memory zero_embedder 100 1 (bangalore 5) migrated_empty_store = Created st1 r1 /\
    create_memory zero_embedder 200 2 (bangalore 7) st1 = Created st2 r2 /\
    row_content_hash r1 = None /\ row_content_hash r2 = None /\
    rows_with "U" "User lives in Bangalore." st2 = 2%nat.
Proof.
  do 4 eexists. split; [reflexivity|]. split; [reflexivity|]. repeat split; reflexivity.
Qed.

(** ** Turn orchestrator: silence mode *)

Definition id_format (content : string) (_ : Z) : string := content.

(** In silence mode the memory block is emptied and no active memory is
    reported. *)
Lemma silence_mode_clears_block fr user_id message turn include rs :
  let out := Orchestrator.process_turn fr user_id message turn include rs in
  Orchestrator.p_silence_mode (Orchestrator.t_prompt out) = true ->
  Orchestrator.p_memory_context (Orchestrator.t_prompt out) = ""%string /\
  Orchestrator.p_memory_count (Orchestrator.t_prompt out) = 0%nat /\
  Orchestrator.t_active_memories out = [].
Proof.
  unfold Orchestrator.process_turn; simpl.
  destruct (_ && _ && _); simpl; [auto | discriminate].
Qed.

Definition raj_memory : Orchestrator.Scored :=
  {| Orchestrator.sc_memory_id := "m-raj"; Orchestrator.sc_content := "User's name is Raj";
     Orchestrator.sc_type := FACT; Orchestrator.sc_source_turn := 1%Z;
     Orchestrator.sc_created_at := 0%Z; Orchestrator.sc_confidence := 9 # 10;
     Orchestrator.sc_relevance_score := 1 # 5 |}%string.

(** C3 (code_bug): at turn 100 the user writes "hi"; retrieval returns only
    the memory "User's name is Raj", scored 0.2.  Silence mode is on, the
    memory block is empty and no active memory is reported, yet the prompt's
    returning-user directive carries the name "Raj" read from that memory:
    [user_name] is extracted before silence mode clears the retrieved set. *)
Theorem silence_mode_leaks_user_name :
  let out := Orchestrator.process_turn id_format "U" "hi" 100 true [raj_memory] in
  Orchestrator.p_silence_mode (Orchestrator.t_prompt out) = true /\
  Orchestrator.p_memory_context (Orchestrator.t_prompt out) = ""%string /\
  Orchestrator.t_active_memories out = [] /\
  Orchestrator.p_special_directive (Orchestrator.t_prompt out)
    = Orchestrator.ReturningUserGreeting "Raj" 0.
Proof. vm_compute. repeat split. Qed.

(** ** Lifecycle: TTL expiry and cleanup against [importance_level] *)












(** ** Canonicalizer: choice of the memory to update *)









(** ** Canonicalizer: in-place update of an evolving preference *)










(** ** Retriever: [top_k] and the calls made *)

Definition tcp_query (top_k : Z) : Retriever.MemorySearchQuery :=
  {| Retriever.q_user_id := "U"; Retriever.q_query := "Explain TCP congestion control.";
     Retriever.q_memory_types := None; Retriever.q_top_k := top_k;
     Retriever.q_min_confidence := (1/2)%R; Retriever.q_current_turn := Some 10%Z |}%string.

Definition empty_ann (_ : list R) (_ : string) (_ : Z) : option (list Retriever.Match) := Some [].

(** C9 (counterexample): run on a query with [top_k = 0], [search] calls the
    embedder and then the ANN index (asking for 0 candidates) before
    returning the empty list. *)
Lemma search_top_k_zero_calls_collaborators :
  Retriever.search zero_embedder empty_ann 0 (tcp_query 0)
  = ([Retriever.EmbedCall "Explain TCP congestion control."; Retriever.AnnQuery "U" 0], [])%string.
Proof. reflexivity. Qed.

(** C9 (amended): a [MemorySearchQuery] that passes its field validation
    has [1 <= top_k <= 50], so [top_k = 0] never reaches [search]; and
    [search] has no [top_k] shortcut: it always calls the embedder first and,
    when that succeeds, the ANN index with [min(3 top_k, 50)]. *)
Theorem search_query_top_k_positive emb ann now q :
  Retriever.validate_search_query q = true ->
  (1 <= Retriever.q_top_k q <= 50)%Z /\
  fst (Retriever.search emb ann now q)
  = Retriever.EmbedCall (Retriever.q_query q)
    :: match emb (Retriever.q_query q) with
       | None => []
       | Some _ => [Retriever.AnnQuery (Retriever.q_user_id q) (Z.min (Retriever.q_top_k q * 3) 50)]
       end.
Proof.
  intro H. unfold Retriever.validate_search_query in H.
  repeat rewrite andb_true_iff in H.
  destruct H as [[[[[[[[H1 H2] _] _] _] _] _] _] _].
  apply Z.leb_le in H1. apply Z.leb_le in H2. split; [lia|].
  unfold Retriever.search.
  destruct (emb (Retriever.q_query q)); [|reflexivity].
  destruct (ann _ _ _); reflexivity.
Qed.

Lemma search_query_top_k_positive_witness :
  Retriever.validate_search_query (tcp_query 5) = true /\
  (1 <= Retriever.q_top_k (tcp_query 5) <= 50)%Z /\
  fst (Retriever.search zero_embedder empty_ann 0 (tcp_query 5))
  = Retriever.EmbedCall (Retriever.q_query (tcp_query 5))
    :: match zero_embedder (Retriever.q_query (tcp_query 5)) with
       | None => []
       | Some _ => [Retriever.AnnQuery (Retriever.q_user_id (tcp_query 5))
                      (Z.min (Retriever.q_top_k (tcp_query 5) * 3) 50)]
       end.
Proof.
  assert (V : Retriever.validate_search_query (tcp_query 5) = true).
  { unfold Retriever.validate_search_query, Rleb. simpl.
    destruct (Rle_dec 0 (1/2)); [|lra]. destruct (Rle_dec (1/2) 1); [|lra]. reflexivity. }
  split; [exact V|]. apply search_query_top_k_positive. exact V.
Defined.

(** ** Retriever: tiering *)



(** ** Retriever: scoring of the returned results *)

















(** A concrete run: one ANN match for the TCP query at turn 10. *)
Definition tcp_match : Retriever.Match :=
  {| Retriever.match_id := "m1"; Retriever.match_score := (9/10)%R;
     Retriever.md_type := Some FACT; Retriever.md_confidence := Some (9/10)%R;
     Retriever.md_source_turn := Some 10%Z; Retriever.md_access_count := Some 3%Z;
     Retriever.md_is_conflicted := Some false; Retriever.md_importance_score := None;
     Retriever.md_importance_level := None;
     Retriever.md_content := Some "TCP uses slow start.";
     Retriever.md_created_at := Some 0%Z |}%string.










(** ** Deduplication before create *)









(* ------------------------------------------------------------------ *)
(** ** Further properties of the retriever, the lifecycle, the manager,
    the storage cache and the routes *)

Lemma pow_993_bounds n : (0 <= (993 / 1000) ^ n <= 1)%R.
Proof.
  induction n as [|n IH]; simpl; [lra|].
  split; [apply Rmult_le_pos; lra|].
  replace 1%R with (1 * 1)%R by ring.
  apply Rmult_le_compat; lra.
Qed.

Lemma pow_993_antitone n m : (n <= m)%nat -> ((993 / 1000) ^ m <= (993 / 1000) ^ n)%R.
Proof.
  induction 1 as [|m _ IH]; [lra|].
  simpl. pose proof (pow_993_bounds m). nra.
Qed.

Lemma recency_le_1 s c : (Retriever.calculate_recency_score s c <= 1)%R.
Proof.
  unfold Retriever.calculate_recency_score.
  destruct (c <=? 0)%Z; [lra|].
  destruct (c - s <=? 0)%Z; [lra|].
  pose proof (pow_993_bounds (Z.to_nat (c - s))).
  unfold Rmax. destruct (Rle_dec _ _); lra.
Qed.

(** [process_match] never yields a result when the query has no
    [current_turn]. *)
Lemma process_match_no_turn now q w m :
  Retriever.q_current_turn q = None -> Retriever.process_match now q w m = None.
Proof.
  intro H. unfold Retriever.process_match. rewrite H.
  repeat match goal with |- context [if ?b then _ else _] => destruct b end; reflexivity.
Qed.

Lemma search_no_turn_nil emb ann now q :
  Retriever.q_current_turn q = None -> snd (Retriever.search emb ann now q) = [].
Proof.
  intro H. unfold Retriever.search.
  destruct (emb _) as [e|]; [|reflexivity].
  destruct (ann _ _ _) as [ms|]; [|reflexivity].
  simpl. replace (flat_map _ ms) with (@nil Retriever.MemorySearchResult).
  - destruct (Z.to_nat _); reflexivity.
  - induction ms as [|m ms IH]; [reflexivity|].
    simpl. rewrite process_match_no_turn by exact H. exact IH.
Qed.

Ltac inert_step :=
  match goal with
  | |- context [if ?b then _ else _] => destruct b
  end.

(** With no [embedder] attribute, the loops of [resolve_conflicts] never
    touch the backend or the count. *)
Lemma inner_loop_inert emb sim res now b cnt m1 rest :
  exists raised, Manager.inner_loop emb sim res now b cnt m1 rest = (b, cnt, raised).
Proof.
  induction rest as [|m2 rest IH]; simpl; [eauto|].
  destruct (negb _ || negb _); [exact IH|]. simpl. eauto.
Qed.

Lemma pairs_loop_inert emb sim res now b cnt l :
  exists raised, Manager.pairs_loop emb sim res now b cnt l = (b, cnt, raised).
Proof.
  induction l as [|m1 rest IH]; simpl; [eauto|].
  destruct (inner_loop_inert emb sim res now b cnt m1 rest) as [[|] E]; rewrite E; eauto.
Qed.

Lemma groups_loop_inert emb sim res now b cnt gs :
  exists raised, Manager.groups_loop emb sim res now b cnt gs = (b, cnt, raised).
Proof.
  induction gs as [|[t l] gs IH]; simpl; [eauto|].
  destruct (pairs_loop_inert emb sim res now b cnt l) as [[|] E]; rewrite E; eauto.
Qed.

Lemma Z_div_day_180 a : (180 * 86400 < a < 181 * 86400)%Z -> (a / 86400 = 180)%Z.
Proof.
  intro H. symmetry. apply Z.div_unique with (r := (a - 180 * 86400)%Z); lia.
Qed.

(** Extra: the recency score of [search] lies between 0.1 and 1. *)
Theorem recency_score_bounds s c :
  (1 / 10 <= Retriever.calculate_recency_score s c <= 1)%R.
Proof.
  split; [|apply recency_le_1].
  unfold Retriever.calculate_recency_score.
  destruct (c <=? 0)%Z; [lra|].
  destruct (c - s <=? 0)%Z; [lra|].
  apply Rmax_r.
Qed.

(** Extra: for a fixed current turn, a memory from a later turn never
    gets a lower recency score than one from an earlier turn. *)
Theorem recency_score_monotone s1 s2 c :
  (s1 <= s2)%Z ->
  (Retriever.calculate_recency_score s1 c <= Retriever.calculate_recency_score s2 c)%R.
Proof.
  intro Hs.
  destruct (Z.leb_spec (c - s2) 0) as [H2|H2].
  - unfold Retriever.calculate_recency_score at 2.
    destruct (c <=? 0)%Z; [apply recency_le_1|].
    rewrite (proj2 (Z.leb_le _ _) H2). apply recency_le_1.
  - unfold Retriever.calculate_recency_score.
    destruct (c <=? 0)%Z; [lra|].
    rewrite (proj2 (Z.leb_gt _ _) H2).
    replace (c - s1 <=? 0)%Z with false by (symmetry; apply Z.leb_gt; lia).
    apply Rle_max_compat_r, pow_993_antitone. lia.
Qed.

Lemma recency_score_monotone_witness :
  (3 <= 7)%Z /\
  (Retriever.calculate_recency_score 3 10 <= Retriever.calculate_recency_score 7 10)%R.
Proof. split; [lia|]. apply (recency_score_monotone 3 7 10). lia. Defined.

(** Extra: [search] returns no result for a query without [current_turn],
    whatever the index returns. *)
Theorem search_without_current_turn_empty emb ann now q :
  Retriever.q_current_turn q = None -> snd (Retriever.search emb ann now q) = [].
Proof. apply search_no_turn_nil. Qed.

Definition tcp_match_ann (_ : list R) (_ : string) (_ : Z) : option (list Retriever.Match) :=
  Some [tcp_match].

Definition tcp_query_no_turn : Retriever.MemorySearchQuery :=
  {| Retriever.q_user_id := "U"; Retriever.q_query := "Explain TCP congestion control.";
     Retriever.q_memory_types := None; Retriever.q_top_k := 5;
     Retriever.q_min_confidence := (1/2)%R; Retriever.q_current_turn := None |}%string.

Lemma search_without_current_turn_empty_witness :
  Retriever.q_current_turn tcp_query_no_turn = None /\
  snd (Retriever.search zero_embedder tcp_match_ann 0 tcp_query_no_turn) = [].
Proof.
  split; [reflexivity|].
  apply (search_without_current_turn_empty zero_embedder tcp_match_ann 0 tcp_query_no_turn).
  reflexivity.
Defined.

(** Extra: the [/memories/search] endpoint answers an empty list, a 422 or
    a 500: it never returns a memory. *)
Theorem search_endpoint_never_returns_memories emb ann now user query top_k :
  Routes.search_memories emb ann now user query top_k = Routes.Http200 []
  \/ Routes.search_memories emb ann now user query top_k = Routes.Http422
  \/ Routes.search_memories emb ann now user query top_k = Routes.Http500.
Proof.
  unfold Routes.search_memories.
  destruct (negb _); [auto|].
  destruct (Retriever.validate_search_query _); [|auto].
  left. rewrite search_no_turn_nil by reflexivity. reflexivity.
Qed.

(** Extra: a [top_k] of 51 to 100 passes the endpoint's own check but
    not [MemorySearchQuery]'s [le=50]: the request fails with a 500. *)
Theorem search_endpoint_top_k_over_50_fails emb ann now user query top_k :
  (51 <= top_k <= 100)%Z ->
  Routes.search_memories emb ann now user query top_k = Routes.Http500.
Proof.
  intro H. unfold Routes.search_memories, Retriever.validate_search_query. simpl.
  replace (1 <=? top_k)%Z with true by (symmetry; apply Z.leb_le; lia).
  replace (top_k <=? 100)%Z with true by (symmetry; apply Z.leb_le; lia).
  replace (top_k <=? 50)%Z with false by (symmetry; apply Z.leb_gt; lia).
  reflexivity.
Qed.

Lemma search_endpoint_top_k_over_50_fails_witness :
  (51 <= 80 <= 100)%Z /\
  Routes.search_memories zero_embedder tcp_match_ann 0 "U" "Explain TCP congestion control." 80
  = Routes.Http500.
Proof.
  split; [lia|].
  apply (search_endpoint_top_k_over_50_fails zero_embedder tcp_match_ann 0 "U"
           "Explain TCP congestion control." 80).
  lia.
Defined.

(** Extra: [mark_commitment_fulfilled] always fails (its [UPDATE] sets an
    [updated_at] column the [memories] table does not have): it returns
    [False] and changes no row. *)
Theorem mark_commitment_fulfilled_always_fails rows memory_id :
  LifecycleExtra.mark_commitment_fulfilled rows memory_id = (rows, false).
Proof. reflexivity. Qed.

(** Extra: [cleanup_fulfilled_commitments] always returns 0 and deletes
    nothing (its [WHERE] clause reads the missing [updated_at] column). *)
Theorem cleanup_fulfilled_commitments_noop updated_at rows now user_id days :
  LifecycleExtra.cleanup_fulfilled_commitments updated_at rows now user_id days = (rows, 0%nat).
Proof. reflexivity. Qed.

(** Extra: [should_memory_expire]'s time-based answer is never "expired"
    for a memory the TTL sweep [expire_old_memories] would keep. *)
Theorem should_expire_implies_swept now r :
  LifecycleExtra.should_memory_expire (row_type r) (row_created_at r) None None now = true ->
  Lifecycle.ttl_expired now None r = true.
Proof.
  unfold LifecycleExtra.should_memory_expire, Lifecycle.ttl_expired.
  destruct (row_type r); simpl; try discriminate.
  unfold Lifecycle.seconds_per_day. intro H. apply Z.ltb_lt in H.
  pose proof (Z.mul_div_le (now - row_created_at r) 86400) as D.
  rewrite andb_true_r. apply Z.ltb_lt. lia.
Qed.

Definition entity_row (created : Z) : Row :=
  {| row_memory_id := 1; row_user_id := "U"; row_type := ENTITY; row_content := "Acme Corp";
     row_embedding := Some (repeat 0%R memory_embedding_dimension); row_source_turn := 1;
     row_created_at := created; row_last_accessed := None; row_access_count := 0;
     row_confidence := (9/10)%R; row_decay_score := 1%R; row_importance_level := "medium";
     row_context := []; row_content_hash := None |}%string.

Lemma should_expire_implies_swept_witness :
  LifecycleExtra.should_memory_expire ENTITY 0 None None (200 * 86400) = true /\
  Lifecycle.ttl_expired (200 * 86400) None (entity_row 0) = true.
Proof.
  split; [reflexivity|].
  apply (should_expire_implies_swept (200 * 86400) (entity_row 0)). reflexivity.
Defined.

(** Extra: an entity aged strictly between 180 and 181 days is deleted by
    the sweep while [should_memory_expire] still says it has not expired
    (the one counts whole days, the other compares timestamps). *)
Theorem sweep_and_should_expire_disagree now r :
  row_type r = ENTITY ->
  (180 * 86400 < now - row_created_at r < 181 * 86400)%Z ->
  Lifecycle.ttl_expired now None r = true /\
  LifecycleExtra.should_memory_expire (row_type r) (row_created_at r) None None now = false.
Proof.
  intros Ht Ha. unfold Lifecycle.ttl_expired, LifecycleExtra.should_memory_expire.
  rewrite Ht. simpl. unfold Lifecycle.seconds_per_day.
  rewrite (Z_div_day_180 _ Ha). split; [|reflexivity].
  rewrite andb_true_r. apply Z.ltb_lt. lia.
Qed.

Lemma sweep_and_should_expire_disagree_witness :
  row_type (entity_row 0) = ENTITY /\
  (180 * 86400 < 15595200 - row_created_at (entity_row 0) < 181 * 86400)%Z /\
  Lifecycle.ttl_expired 15595200 None (entity_row 0) = true /\
  LifecycleExtra.should_memory_expire ENTITY 0 None None 15595200 = false.
Proof.
  split; [reflexivity|]. split; [simpl; lia|].
  apply (sweep_and_should_expire_disagree 15595200 (entity_row 0)); [reflexivity|simpl; lia].
Defined.

(** Extra: [resolve_conflicts] always returns 0 and leaves the rows and
    the cache as they were ([MemoryManager] has no [embedder], so the
    first pair of memories with embeddings raises, and the error is
    swallowed). *)
Theorem resolve_conflicts_inert embed similarity resolve_conflict now b user_id :
  Manager.resolve_conflicts embed similarity resolve_conflict now b user_id = (b, 0%nat).
Proof.
  unfold Manager.resolve_conflicts.
  destruct (Manager.fetch_user_memories _ _ _ _) as [ms|]; [|reflexivity].
  destruct (groups_loop_inert embed similarity resolve_conflict now b 0 (Manager.group_by_type ms))
    as [[|] E]; rewrite E; reflexivity.
Qed.

(** Extra: the management endpoints never succeed: [/memories/cleanup]
    passes [days=] to a method without such a parameter and
    [/memories/decay] omits [apply_decay]'s two required arguments (both
    raise [TypeError] before any row is touched), and [/memories/list]
    calls a [list_memories] method [MemoryStorage] does not have. *)
Theorem management_endpoints_fail rows now user_id days memory_type limit :
  Routes.cleanup_old_memories_route rows now user_id days
    = (rows, if (1 <=? days)%Z && (days <=? 100)%Z then Routes.Http500 else Routes.Http422) /\
  Routes.apply_memory_decay_route rows = (rows, Routes.Http500) /\
  Routes.list_memories_route rows user_id memory_type limit
    = (if (1 <=? limit)%Z && (limit <=? 200)%Z then Routes.Http500 else Routes.Http422).
Proof.
  unfold Routes.cleanup_old_memories_route, Routes.list_memories_route.
  split; [|split; [reflexivity|]];
    destruct ((1 <=? _)%Z && (_ <=? _)%Z); reflexivity.
Qed.

(** *** Storage, cache and canonicalizer lemmas *)

Ltac decide_reals :=
  unfold Rleb, Rltb in *;
  repeat match goal with
         | |- context [Req_EM_T ?a ?b] => destruct (Req_EM_T a b); try (exfalso; lra)
         | |- context [Req_dec_T ?a ?b] => destruct (Req_dec_T a b); try (exfalso; lra)
         | H : context [Rle_dec ?a ?b] |- _ =>
             destruct (Rle_dec a b); cbn in H; try discriminate H
         | H : context [Rlt_dec ?a ?b] |- _ =>
             destruct (Rlt_dec a b); cbn in H; try discriminate H
         | |- context [Rle_dec ?a ?b] => destruct (Rle_dec a b); try (exfalso; lra)
         | |- context [Rlt_dec ?a ?b] => destruct (Rlt_dec a b); try (exfalso; lra)
         end.





Lemma cache_get_delete c mid t : Storage.cache_get (Storage.cache_delete c mid) mid t = None.
Proof.
  unfold Storage.cache_get, Storage.cache_delete.
  induction c as [|[k [m e]] c IH]; simpl; [reflexivity|].
  destruct (Nat.eqb k mid) eqn:E; simpl; [exact IH|rewrite E; exact IH].
Qed.

Lemma cache_get_mono c mid t1 t2 :
  Storage.cache_get c mid t1 = None -> (t1 <= t2)%Z -> Storage.cache_get c mid t2 = None.
Proof.
  unfold Storage.cache_get.
  destruct (find _ c) as [[k [m e]]|]; [|reflexivity].
  destruct (t1 <? e)%Z eqn:E1; [discriminate|]. intros _ H.
  apply Z.ltb_ge in E1. replace (t2 <? e)%Z with false by (symmetry; apply Z.ltb_ge; lia).
  reflexivity.
Qed.



Lemma find_delete_none rows mid :
  find (fun r => Nat.eqb (row_memory_id r) mid) (Lifecycle.delete_memory rows mid) = None.
Proof.
  unfold Lifecycle.delete_memory.
  induction rows as [|r rows IH]; simpl; [reflexivity|].
  destruct (Nat.eqb (row_memory_id r) mid) eqn:E; simpl; [exact IH|rewrite E; exact IH].
Qed.











(** Extra: once [delete_memory] has run, [get_memory] finds nothing for
    that id at any later time, whether or not the delete reported
    success. *)
Theorem delete_then_get_none b mid now t :
  (now <= t)%Z -> snd (Storage.get_memory (fst (Storage.delete_memory b mid now)) mid t) = None.
Proof.
  intro Ht. unfold Storage.delete_memory.
  destruct (Storage.get_memory b mid now) as [b1 got] eqn:G.
  destruct got as [m|].
  - unfold Storage.get_memory at 1.
    cbn [fst Storage.b_cache Storage.b_store Storage.with_cache Storage.with_rows st_rows].
    rewrite cache_get_delete, find_delete_none. reflexivity.
  - cbn [fst]. unfold Storage.get_memory in G |- *.
    destruct (Storage.cache_get (Storage.b_cache b) mid now) eqn:C; [discriminate|].
    destruct (find _ (st_rows (Storage.b_store b))) as [r|] eqn:F.
    + destruct (Storage.memory_of_row r) eqn:M; [discriminate|].
      injection G as <-. rewrite (cache_get_mono _ _ _ _ C Ht), F, M. reflexivity.
    + injection G as <-. rewrite (cache_get_mono _ _ _ _ C Ht), F. reflexivity.
Qed.







Definition diet_row : Row :=
  {| row_memory_id := 1; row_user_id := "U"; row_type := PREFERENCE;
     row_content := "User's diet is vegetarian.";
     row_embedding := Some (repeat 0%R memory_embedding_dimension); row_source_turn := 1;
     row_created_at := 0; row_last_accessed := None; row_access_count := 0;
     row_confidence := (9/10)%R; row_decay_score := 1%R; row_importance_level := "medium";
     row_context := []; row_content_hash := None |}%string.

Definition diet_backend : Storage.Backend :=
  {| Storage.b_store := {| st_rows := [diet_row]; st_hash_index := true |};
     Storage.b_cache := [] |}.



Lemma delete_then_get_none_witness :
  (0 <= 10)%Z /\ snd (Storage.get_memory (fst (Storage.delete_memory diet_backend 1 0)) 1 10) = None.
Proof. split; [lia|]. apply (delete_then_get_none diet_backend 1 0 10). lia. Defined.







(** *** Deleting in a loop *)

















(** *** The extraction task and [find_similar_memories] *)








(** Extra: every memory [find_similar_memories] returns comes from a match
    the index returned for the memory's own embedding and user, other
    than the memory itself, scoring at least the threshold, whose id
    parses as a UUID; it carries the query memory's user and no
    embedding.  A memory without embedding gets no result. *)
Theorem find_similar_results_origin ann parse_uuid str_uuid now memory threshold s :
  In s (Similar.find_similar_memories ann parse_uuid str_uuid now memory threshold) ->
  exists e matches mt,
    Storage.embedding memory = Some e /\ e <> [] /\
    ann e (Storage.user_id memory) 20%Z = Some matches /\ In mt matches /\
    Retriever.match_id mt <> str_uuid (Storage.memory_id memory) /\
    (threshold <= Retriever.match_score mt)%R /\
    parse_uuid (Retriever.match_id mt) = Some (Storage.memory_id s) /\
    Storage.user_id s = Storage.user_id memory /\ Storage.embedding s = None.
Proof.
  unfold Similar.find_similar_memories.
  destruct (Storage.embedding memory) as [[|x e]|] eqn:Em; try (intros []).
  destruct (ann (x :: e) (Storage.user_id memory) 20%Z) as [ms|] eqn:A; [|intros []].
  intro H. apply in_flat_map in H as [mt [Hmt Hs]].
  destruct (Similar.similar_of_match parse_uuid str_uuid now memory threshold mt) as [s'|] eqn:Sm;
    [|destruct Hs].
  destruct Hs as [<-|[]].
  unfold Similar.similar_of_match in Sm.
  destruct (String.eqb _ _) eqn:E1; [discriminate|].
  destruct (Rltb _ _) eqn:E2; [discriminate|].
  destruct (parse_uuid (Retriever.match_id mt)) as [n|] eqn:E3; [|discriminate].
  destruct (Storage.memory_valid _); [|discriminate].
  injection Sm as <-.
  exists (x :: e), ms, mt. repeat split; try assumption; try discriminate.
  - apply String.eqb_neq, E1.
  - unfold Rltb in E2. destruct (Rlt_dec _ _); [discriminate|lra].
Qed.

Definition diet_memory : Storage.Memory :=
  {| Storage.memory_id := 1; Storage.user_id := "U"; Storage.type_ := PREFERENCE;
     Storage.content := "User's diet is vegetarian.";
     Storage.embedding := Some (repeat 0%R memory_embedding_dimension);
     Storage.metadata := {| Storage.source_turn := 1; Storage.created_at := 0;
                            Storage.last_accessed := 0; Storage.access_count := 0;
                            Storage.confidence := 9/10; Storage.decay_score := 1;
                            Storage.importance_score := 7/10; Storage.importance_level := "medium";
                            Storage.context := [] |} |}%string.

Definition vegan_match : Retriever.Match :=
  {| Retriever.match_id := "m-2"; Retriever.match_score := (9/10)%R;
     Retriever.md_type := Some PREFERENCE; Retriever.md_confidence := Some (8/10)%R;
     Retriever.md_source_turn := Some 2%Z; Retriever.md_access_count := None;
     Retriever.md_is_conflicted := None; Retriever.md_importance_score := None;
     Retriever.md_importance_level := None; Retriever.md_content := Some "User is vegan."%string;
     Retriever.md_created_at := Some 50%Z |}.

Definition vegan_ann (_ : list R) (_ : string) (_ : Z) : option (list Retriever.Match) :=
  Some [vegan_match].

Definition uuid_table_parse (s : string) : option nat :=
  if String.eqb s "m-1" then Some 1%nat else if String.eqb s "m-2" then Some 2%nat else None.

Definition uuid_table_str (n : nat) : string :=
  match n with 1%nat => "m-1" | 2%nat => "m-2" | _ => "m-?" end.

Definition vegan_similar : Storage.Memory :=
  {| Storage.memory_id := 2; Storage.user_id := "U"; Storage.type_ := PREFERENCE;
     Storage.content := "User is vegan."; Storage.embedding := None;
     Storage.metadata := {| Storage.source_turn := 2; Storage.created_at := 50;
                            Storage.last_accessed := 100; Storage.access_count := 0;
                            Storage.confidence := 8/10; Storage.decay_score := 1;
                            Storage.importance_score := 7/10; Storage.importance_level := "medium";
                            Storage.context := [] |} |}%string.

Lemma find_similar_results_origin_witness :
  In vegan_similar
     (Similar.find_similar_memories vegan_ann uuid_table_parse uuid_table_str 100 diet_memory (85/100)) /\
  exists e matches mt,
    Storage.embedding diet_memory = Some e /\ e <> [] /\
    vegan_ann e (Storage.user_id diet_memory) 20%Z = Some matches /\ In mt matches /\
    Retriever.match_id mt <> uuid_table_str (Storage.memory_id diet_memory) /\
    ((85/100) <= Retriever.match_score mt)%R /\
    uuid_table_parse (Retriever.match_id mt) = Some (Storage.memory_id vegan_similar) /\
    Storage.user_id vegan_similar = Storage.user_id diet_memory /\ Storage.embedding vegan_similar = None.
Proof.
  assert (H : In vegan_similar
     (Similar.find_similar_memories vegan_ann uuid_table_parse uuid_table_str 100 diet_memory (85/100))).
  { unfold Similar.find_similar_memories, Similar.similar_of_match, Storage.memory_valid,
      Storage.metadata_valid, Storage.in01.
    cbn. decide_reals. left. reflexivity. }
  split; [exact H|].
  exact (find_similar_results_origin vegan_ann uuid_table_parse uuid_table_str 100 diet_memory
           (85/100) vegan_similar H).
Defined.
